(** * HangarControl: the schedule and command synchronisation engine

    A shallow embedding of the firmware in [src/src/main.cpp] (first
    translation unit, lines 1-526): the weekly power schedule and its
    evaluation ([checkSchedules]), the downlink decoder ([processDownlink]),
    the uplink builder and periodic job ([statusUpdate]), the transmission
    path ([do_send]) and the LMIC event handler ([onEvent]).

    The ArduinoJson codec and the LMIC radio stack are external libraries;
    they enter the model as the result of a decode (a [value]) and as
    inputs of events.  The real-time clock is modelled by its epoch, from
    which the calendar fields are derived.  Undefined behaviour of the C++
    code (an array write out of range, a read through a null pointer) is
    the [None] outcome. *)

From Stdlib Require Import ZArith List String Ascii Bool Lia.
Import ListNotations.

Open Scope Z_scope.
Set Warnings "-register-all".

(** ** Documents, as the ArduinoJson variant the code reads and writes *)

Inductive value : Type :=
| VNull
| VBool (b : bool)
| VInt (n : Z)
| VStr (s : string)
| VArr (l : list value)
| VObj (fs : list (string * value)).

(** ArduinoJson's [DeserializationError] codes. *)
Inductive DeserializationError : Type :=
| DeOk | EmptyInput | IncompleteInput | InvalidInput | NoMemory | TooDeep.

(** [obj["key"]]: the first member with that key; [None] is the null
    variant (missing member, or a document that is not an object). *)
Fixpoint lookup (k : string) (fs : list (string * value)) : option value :=
  match fs with
  | [] => None
  | (k', v) :: r => if String.eqb k k' then Some v else lookup k r
  end.

Definition obj_get (d : value) (k : string) : option value :=
  match d with
  | VObj fs => lookup k fs
  | _ => None
  end.

(** [obj["key"] = v] on the object [cmdJson]: overwrite the member if it
    exists, otherwise append it. *)
Fixpoint doc_set (fs : list (string * value)) (k : string) (v : value)
  : list (string * value) :=
  match fs with
  | [] => [(k, v)]
  | (k', v') :: r =>
      if String.eqb k k' then (k', v) :: r else (k', v') :: doc_set r k v
  end.

(** Conversions [v.as<T>()] used by [processDownlink]. *)
Definition as_bool (v : option value) : bool :=
  match v with
  | Some (VBool b) => b
  | Some (VInt n) => negb (n =? 0)
  | _ => false
  end.

Definition as_int (v : option value) : Z :=
  match v with
  | Some (VInt n) => if (-2147483648 <=? n) && (n <=? 2147483647) then n else 0
  | _ => 0
  end.

Definition as_u32 (v : option value) : Z :=
  match v with
  | Some (VInt n) => if (0 <=? n) && (n <? 4294967296) then n else 0
  | _ => 0
  end.

(** [const char *time = v.as<char *>()]: [None] is the null pointer; the C
    string stops at the first NUL. *)
Fixpoint c_chars (l : list ascii) : list ascii :=
  match l with
  | [] => []
  | c :: r => if Ascii.eqb c Ascii.zero then [] else c :: c_chars r
  end.

Definition as_cstr (v : option value) : option (list ascii) :=
  match v with
  | Some (VStr s) => Some (c_chars (list_ascii_of_string s))
  | _ => None
  end.

(** [const String cmd = payloadJson["cmd"]]; a value that is not a string
    never converts to a text equal to "init", the only text compared. *)
Definition as_String (v : option value) : string :=
  match v with
  | Some (VStr s) => s
  | _ => EmptyString
  end.

(** [const JsonArray schedAry = payloadJson["cmd-data"]]: a null array
    (size 0) unless the member is an array. *)
Definition as_array (v : option value) : list value :=
  match v with
  | Some (VArr l) => l
  | _ => []
  end.

(** Arduino's [String::equalsIgnoreCase]. *)
Definition lower (c : ascii) : ascii :=
  let n := nat_of_ascii c in
  if (65 <=? n)%nat && (n <=? 90)%nat then ascii_of_nat (n + 32) else c.

Fixpoint equalsIgnoreCase (a b : list ascii) : bool :=
  match a, b with
  | [], [] => true
  | x :: a', y :: b' => Ascii.eqb (lower x) (lower y) && equalsIgnoreCase a' b'
  | _, _ => false
  end.

(** ** C library helpers: [strncpy(buf, src, 2)] and [atoi] *)

(** [strncpy(buf, src, 2)] writes exactly two bytes: the first characters
    of [src] up to its terminator, padded with NUL. *)
Definition strncpy2 (src : list ascii) : list ascii :=
  firstn 2 (src ++ [Ascii.zero; Ascii.zero]).

Definition is_digit (c : ascii) : bool :=
  let n := nat_of_ascii c in (48 <=? n)%nat && (n <=? 57)%nat.

Definition is_space (c : ascii) : bool :=
  let n := nat_of_ascii c in (n =? 32)%nat || ((9 <=? n)%nat && (n <=? 13)%nat).

Fixpoint skip_ws (l : list ascii) : list ascii :=
  match l with
  | c :: r => if is_space c then skip_ws r else l
  | [] => []
  end.

Fixpoint digits_val (acc : Z) (l : list ascii) : Z :=
  match l with
  | c :: r =>
      if is_digit c then digits_val (acc * 10 + Z.of_nat (nat_of_ascii c - 48)) r
      else acc
  | [] => acc
  end.

Definition atoi (l : list ascii) : Z :=
  match skip_ws l with
  | c :: r =>
      if Ascii.eqb c "-"%char then - digits_val 0 r
      else if Ascii.eqb c "+"%char then digits_val 0 r
      else digits_val 0 (c :: r)
  | [] => 0
  end.

(** ** Schedule entries

    Modelled from the spec: [Schedule.hpp] is not among the sources; the
    struct has the four fields main.cpp reads and writes, with the types
    of ScheduleEntry in spec section 3. *)
Module Schedule.
Record t : Type := mk {
  powerState : bool;
  dow : Z;
  hour : Z;
  min : Z
}.
End Schedule.

Definition default_schedule : Schedule.t := Schedule.mk false 0 0 0.

(** [powerSched[i] = e] on the 25-slot array; out of range is undefined. *)
Fixpoint nth_set {A} (i : nat) (x : A) (l : list A) : option (list A) :=
  match l, i with
  | [], _ => None
  | _ :: r, O => Some (x :: r)
  | y :: r, S i' => option_map (cons y) (nth_set i' x r)
  end.

(** ** Engine state: the globals of main.cpp *)

Record Engine : Type := mkEngine {
  rtc_epoch : Z;                          (* rtc *)
  powerSched : list Schedule.t;           (* Schedule powerSched[25] *)
  schedCount : Z;                         (* u_int8_t schedCount *)
  powerState : bool * bool;               (* boolean powerState[2] *)
  startUpComplete : bool;
  txInProg : bool;
  timeSet : bool;
  cmdJson : list (string * value)         (* the pending uplink object *)
}.

Definition set_rtc_epoch (t : Z) (s : Engine) : Engine :=
  mkEngine t (powerSched s) (schedCount s) (powerState s)
    (startUpComplete s) (txInProg s) (timeSet s) (cmdJson s).

Definition set_powerState (p : bool * bool) (s : Engine) : Engine :=
  mkEngine (rtc_epoch s) (powerSched s) (schedCount s) p
    (startUpComplete s) (txInProg s) (timeSet s) (cmdJson s).

Definition set_txInProg (b : bool) (s : Engine) : Engine :=
  mkEngine (rtc_epoch s) (powerSched s) (schedCount s) (powerState s)
    (startUpComplete s) b (timeSet s) (cmdJson s).

Definition set_timeSet (b : bool) (s : Engine) : Engine :=
  mkEngine (rtc_epoch s) (powerSched s) (schedCount s) (powerState s)
    (startUpComplete s) (txInProg s) b (cmdJson s).

Definition set_cmdJson (d : list (string * value)) (s : Engine) : Engine :=
  mkEngine (rtc_epoch s) (powerSched s) (schedCount s) (powerState s)
    (startUpComplete s) (txInProg s) (timeSet s) d.

(** The power-on state after [setup()]. *)
Definition initial_engine (t : Z) : Engine :=
  mkEngine t (repeat default_schedule 25) 0 (false, false) false false false [].

(** Observable effects: a frame handed to LMIC ([LMIC_setTxData2]), the
    power transition markers of [checkSchedules], and the network-time
    request issued on join. *)
Inductive obs : Type :=
| TxData (msg : list (string * value))
| PowerOn
| PowerOff
| NetTimeRequest.

(** ** Clock: calendar fields of the RTC epoch *)

Definition getHours (t : Z) : Z := (t mod 86400) / 3600.
Definition getMinutes (t : Z) : Z := (t mod 3600) / 60.

(** A C [int] on the target (SAMD21, ARM Cortex-M0+) has 32 bits; a
    result out of its range, or a [time_t] converted to it, wraps modulo
    2^32 as the generated code does. *)
Definition wrap32 (x : Z) : Z := (x + 2147483648) mod 4294967296 - 2147483648.

(** [dayOfWeek(now, tz_offset)], with C's truncating [/] and [%]: the
    product [tz_offset * 60 * 60] and [days_since_epoch + 4] are [int]
    arithmetic, [days_since_epoch] is the [time_t] quotient stored in an
    [int]; [time_t] is 64-bit, and [now] is the 32-bit [rtc.getEpoch()] at
    the only call, so [localtime] itself does not overflow. *)
Definition dayOfWeek (now tz_offset : Z) : Z :=
  let localtime := now + wrap32 (wrap32 (tz_offset * 60) * 60) in
  let days_since_epoch := wrap32 (Z.quot localtime 86400) in
  Z.rem (wrap32 (days_since_epoch + 4)) 7.

(** ** [checkSchedules] (main.cpp 174-230) *)

(** The condition of the [if] in the loop body, at RTC epoch [t]. *)
Definition sched_matches (t : Z) (e : Schedule.t) : bool :=
  (dayOfWeek t 0 =? Schedule.dow e)
  && (getHours t =? Schedule.hour e)
  && (Schedule.min e <=? getMinutes t).

(** The loop [for (i = 0; i < schedCount; ++i)] over [newState]. *)
Fixpoint scan (t : Z) (newState : bool) (l : list Schedule.t) : bool :=
  match l with
  | [] => newState
  | e :: r =>
      scan t (if sched_matches t e then Schedule.powerState e else newState) r
  end.

(** The entries the loop visits.  In every defined run [schedCount] is at
    most 25 (a longer table stops [processDownlink] at the undefined write
    [powerSched[25]]), so the loop reads only the 25 slots. *)
Definition active (s : Engine) : list Schedule.t :=
  firstn (Z.to_nat (schedCount s)) (powerSched s).

Definition checkSchedules (s : Engine) : Engine * list obs :=
  let newState := scan (rtc_epoch s) false (active s) in
  if Bool.eqb (fst (powerState s)) newState then (s, [])
  else (set_powerState (newState, snd (powerState s)) s,
        [if newState then PowerOn else PowerOff]).

(** ** [statusUpdate] (main.cpp 450-499) and [do_send] (401-443) *)

(** The member assignments on [cmdJson] made by one tick, in order. *)
Definition cmd_writes (s : Engine) : list (string * value) :=
  (if negb (startUpComplete s)
   then [("cmd"%string, VStr "start"); ("my-time"%string, VInt (rtc_epoch s))]
   else [])
  ++ (if startUpComplete s && (getMinutes (rtc_epoch s) mod 5 =? 0)
      then [("cmd"%string, VStr "status");
            ("my-time"%string, VInt (rtc_epoch s));
            ("state"%string,
              VArr [VBool (fst (powerState s)); VBool (snd (powerState s))])]
      else []).

Definition apply_writes (d : list (string * value)) (w : list (string * value))
  : list (string * value) :=
  fold_left (fun acc kv => doc_set acc (fst kv) (snd kv)) w d.

(** [do_send()]; [busy] is the LMIC flag [OP_TXRXPEND].  The frame is
    handed to LMIC whatever [LMIC_setTxData2] answers, and [cmdJson] is
    cleared. *)
Definition do_send (busy : bool) (s : Engine) : Engine * list obs :=
  if busy then (s, [])
  else if (0 <? List.length (cmdJson s))%nat
  then (set_cmdJson [] s, [TxData (cmdJson s)])
  else (s, []).

Definition statusUpdate (busy : bool) (s : Engine) : Engine * list obs :=
  let s1 := set_cmdJson (apply_writes (cmdJson s) (cmd_writes s)) s in
  let '(s2, o2) := if startUpComplete s1 then checkSchedules s1 else (s1, []) in
  let '(s3, o3) := if negb (txInProg s2) then do_send busy s2 else (s2, []) in
  (s3, o2 ++ o3).

(** [network_time_cb]: [ref] is the network time reference, [None] when
    [LMIC_getNetworkTimeReference] fails. *)
Definition network_time_cb (ref : option Z) (s : Engine) : Engine :=
  match ref with
  | Some t => set_timeSet true (set_rtc_epoch t s)
  | None => s
  end.

(** ** [processDownlink] (main.cpp 232-303) and the event loop *)

Section Firmware.

(** The ArduinoJson decoders: [deserializeMsgPack] on the received frame,
    and, for an element of "cmd-data", its [String] conversion followed by
    [deserializeJson(oneSched, sched)].  Each yields the error code and the
    document as left in [payloadJson] / [oneSched]. *)
Variable deserializeMsgPack : list Byte.byte -> DeserializationError * value.
Variable deserializeJson : value -> DeserializationError * value.

(** [char hour[3]; strncpy(hour, time, 2)] writes two bytes only; [atoi]
    then reads on into the unwritten bytes: [stack_h] (resp. [stack_m]) are
    the bytes at [hour + 2] (resp. [min + 2]) onward. *)
Variable stack_h stack_m : list ascii.

(** One iteration of the [for] loop, at index [i], on element [e]. *)
Definition decode_entry (e : value) : option Schedule.t :=
  let oneSched := snd (deserializeJson e) in       (* error code ignored *)
  match as_cstr (obj_get oneSched "tm") with
  | None => None                                   (* strncpy from NULL *)
  | Some time =>
      if (List.length time <? 2)%nat then None     (* time + 2 past the end *)
      else Some (Schedule.mk
                   (as_bool (obj_get oneSched "st"))
                   (as_int (obj_get oneSched "dow"))
                   (atoi (strncpy2 time ++ stack_h))
                   (atoi (strncpy2 (skipn 2 time) ++ stack_m)))
  end.

Fixpoint load (i : nat) (elems : list value) (sched : list Schedule.t)
  : option (list Schedule.t) :=
  match elems with
  | [] => Some sched
  | e :: r =>
      match decode_entry e with
      | None => None
      | Some entry =>
          match nth_set i entry sched with
          | None => None                               (* powerSched[i], i >= 25 *)
          | Some sched' => load (S i) r sched'
          end
      end
  end.

Definition u8 (n : Z) : Z := n mod 256.

Definition processDownlink (frame : list Byte.byte) (s : Engine)
  : option (Engine * list obs) :=
  if (List.length frame =? 0)%nat then Some (s, [])
  else
    let '(err, payloadJson) := deserializeMsgPack frame in
    match err with
    | DeOk =>
        let cmd := as_String (obj_get payloadJson "cmd") in
        let curTime := as_u32 (obj_get payloadJson "cur-time") in
        if equalsIgnoreCase (list_ascii_of_string cmd) (list_ascii_of_string "init")
        then
          let schedAry := as_array (obj_get payloadJson "cmd-data") in
          let count := u8 (Z.of_nat (List.length schedAry)) in
          match load 0 (firstn (Z.to_nat count) schedAry) (powerSched s) with
          | None => None
          | Some sched =>
              Some (checkSchedules
                      (mkEngine curTime sched count (powerState s) true
                         (txInProg s) (timeSet s) (cmdJson s)))
          end
        else Some (s, [])
    | _ => Some (s, [])
    end.

(** Events delivered by the LMIC run loop: the timer of [statusJob] (with
    the [OP_TXRXPEND] flag), the [onEvent] cases with an effect, the
    network-time callback, and the RTC advancing. *)
Inductive event : Type :=
| EvTick (busy : bool)
| EvTxComplete (frame : list Byte.byte)
| EvRxComplete (frame : list Byte.byte)
| EvJoined
| EvNetworkTime (ref : option Z)
| EvClock (t : Z)
| EvOther.

Definition step (ev : event) (s : Engine) : option (Engine * list obs) :=
  match ev with
  | EvTick busy => Some (statusUpdate busy s)
  | EvTxComplete frame => processDownlink frame (set_txInProg false s)
  | EvRxComplete frame => processDownlink frame s
  | EvJoined => Some (s, [NetTimeRequest])
  | EvNetworkTime ref => Some (network_time_cb ref s, [])
  | EvClock t => Some (set_rtc_epoch t s, [])
  | EvOther => Some (s, [])
  end.

Fixpoint run (evs : list event) (s : Engine) : option (Engine * list obs) :=
  match evs with
  | [] => Some (s, [])
  | ev :: r =>
      match step ev s with
      | None => None
      | Some (s', o) =>
          match run r s' with
          | None => None
          | Some (s'', o') => Some (s'', o ++ o')
          end
      end
  end.

End Firmware.

(** ** Sample data *)

(** 1970-01-05 08:45 UTC, a Monday. *)
Definition monday_0845 : Z := 4 * 86400 + 8 * 3600 + 45 * 60.

Definition on_0800 : Schedule.t := Schedule.mk true 1 8 0.
Definition off_0830 : Schedule.t := Schedule.mk false 1 8 30.

Definition monday_engine : Engine :=
  mkEngine monday_0845 ([on_0800; off_0830] ++ repeat default_schedule 23) 2
    (true, false) true false false [].

(** ** Schedule evaluation *)

Lemma scan_app t b l1 l2 : scan t b (l1 ++ l2) = scan t (scan t b l1) l2.
Proof.
  revert b; induction l1 as [|e l1 IH]; intros b; simpl; [reflexivity|].
  apply IH.
Qed.

Lemma scan_no_match t b l :
  (forall e, In e l -> sched_matches t e = false) -> scan t b l = b.
Proof.
  revert b; induction l as [|e l IH]; intros b H; simpl; [reflexivity|].
  rewrite (H e (or_introl eq_refl)).
  apply IH; intros e' He'; apply H; right; exact He'.
Qed.

Lemma checkSchedules_powerState s :
  powerState (fst (checkSchedules s))
  = (scan (rtc_epoch s) false (active s), snd (powerState s)).
Proof.
  unfold checkSchedules.
  destruct (Bool.eqb (fst (powerState s)) (scan (rtc_epoch s) false (active s)))
    eqn:E; simpl; [|reflexivity].
  apply Bool.eqb_prop in E; rewrite <- E; destruct (powerState s); reflexivity.
Qed.

Lemma checkSchedules_active s : active (fst (checkSchedules s)) = active s.
Proof.
  unfold checkSchedules; destruct (Bool.eqb _ _); reflexivity.
Qed.

Lemma checkSchedules_epoch s : rtc_epoch (fst (checkSchedules s)) = rtc_epoch s.
Proof.
  unfold checkSchedules; destruct (Bool.eqb _ _); reflexivity.
Qed.

(** C1, as the code does it: with no matching entry the loop leaves
    [newState] at its initial [false], so output 0 is switched OFF. *)
Lemma checkSchedules_no_match_counterexample :
  ~ (forall s,
       (forall e, In e (active s) -> sched_matches (rtc_epoch s) e = false) ->
       powerState (fst (checkSchedules s)) = powerState s).
Proof.
  intros H.
  specialize (H (set_rtc_epoch (monday_0845 + 86400) monday_engine)).
  assert (Hno : forall e,
            In e (active (set_rtc_epoch (monday_0845 + 86400) monday_engine)) ->
            sched_matches (rtc_epoch (set_rtc_epoch (monday_0845 + 86400) monday_engine)) e
            = false).
  { intros e He; vm_compute in He.
    destruct He as [<-|[<-|[]]]; vm_compute; reflexivity. }
  specialize (H Hno); vm_compute in H; discriminate H.
Qed.

(** C1 (amended): when no entry of the active table matches the current
    day, hour and minute threshold, evaluation sets output 0 to OFF
    ([false]) and leaves output 1 alone; the output is unchanged only when
    it already was OFF. *)
Theorem checkSchedules_no_match_off s :
  (forall e, In e (active s) -> sched_matches (rtc_epoch s) e = false) ->
  powerState (fst (checkSchedules s)) = (false, snd (powerState s)).
Proof.
  intros H; rewrite checkSchedules_powerState, scan_no_match by exact H.
  reflexivity.
Qed.

(** Tuesday 08:45: the Monday ON-08:00 / OFF-08:30 table has no entry for
    the day, and output 0, ON before, is switched OFF. *)
Lemma checkSchedules_no_match_off_witness :
  (forall e, In e (active (set_rtc_epoch (monday_0845 + 86400) monday_engine)) ->
             sched_matches (rtc_epoch (set_rtc_epoch (monday_0845 + 86400) monday_engine)) e
             = false)
  /\ powerState (fst (checkSchedules (set_rtc_epoch (monday_0845 + 86400) monday_engine)))
     = (false, snd (powerState (set_rtc_epoch (monday_0845 + 86400) monday_engine))).
Proof.
  assert (H : forall e,
            In e (active (set_rtc_epoch (monday_0845 + 86400) monday_engine)) ->
            sched_matches (rtc_epoch (set_rtc_epoch (monday_0845 + 86400) monday_engine)) e
            = false).
  { intros e He; vm_compute in He.
    destruct He as [<-|[<-|[]]]; vm_compute; reflexivity. }
  split; [exact H|].
  exact (checkSchedules_no_match_off (set_rtc_epoch (monday_0845 + 86400) monday_engine) H).
Defined.

(** C4: among the active entries matching the current day and hour with
    their minute threshold reached, the last one in table order decides
    output 0. *)
Theorem checkSchedules_last_match_wins s pre e post :
  active s = pre ++ e :: post ->
  sched_matches (rtc_epoch s) e = true ->
  (forall e', In e' post -> sched_matches (rtc_epoch s) e' = false) ->
  fst (powerState (fst (checkSchedules s))) = Schedule.powerState e.
Proof.
  intros Hact Hm Hpost.
  rewrite checkSchedules_powerState, Hact, scan_app; simpl.
  rewrite Hm; apply scan_no_match; exact Hpost.
Qed.

(** The spec's tie-break test: ON at 08:00 then OFF at 08:30, evaluated on
    Monday at 08:45, switches output 0 OFF. *)
Lemma checkSchedules_last_match_wins_witness :
  dayOfWeek monday_0845 0 = 1 /\ getHours monday_0845 = 8
  /\ getMinutes monday_0845 = 45
  /\ fst (powerState (fst (checkSchedules monday_engine))) = false.
Proof.
  split; [reflexivity|]; split; [reflexivity|]; split; [reflexivity|].
  exact (checkSchedules_last_match_wins monday_engine [on_0800] off_0830 []
           eq_refl eq_refl (fun e' (H : In e' []) => match H with end)).
Defined.

(** C8: a second evaluation at the same time changes nothing and emits no
    transition marker. *)
Theorem checkSchedules_idempotent s :
  checkSchedules (fst (checkSchedules s))
  = (fst (checkSchedules s), []).
Proof.
  unfold checkSchedules at 1.
  rewrite checkSchedules_powerState, checkSchedules_active, checkSchedules_epoch.
  simpl; rewrite Bool.eqb_reflx; reflexivity.
Qed.

(** ** Uplink builder and transmission flag *)

Lemma lookup_doc_set_same d k v : lookup k (doc_set d k v) = Some v.
Proof.
  induction d as [|[k' v'] d IH]; simpl.
  - rewrite String.eqb_refl; reflexivity.
  - destruct (String.eqb k k') eqn:E; simpl.
    + rewrite E; reflexivity.
    + rewrite E; exact IH.
Qed.

Lemma lookup_doc_set_other d k k' v :
  k' <> k -> lookup k' (doc_set d k v) = lookup k' d.
Proof.
  intros Hne; induction d as [|[k0 v0] d IH]; simpl.
  - destruct (String.eqb k' k) eqn:E; [apply String.eqb_eq in E; contradiction|].
    reflexivity.
  - destruct (String.eqb k k0) eqn:E; simpl.
    + apply String.eqb_eq in E; subst k0.
      destruct (String.eqb k' k) eqn:E'; [apply String.eqb_eq in E'; contradiction|].
      reflexivity.
    + destruct (String.eqb k' k0); [reflexivity|exact IH].
Qed.

Definition is_cmd_key (kv : string * value) : bool := String.eqb (fst kv) "cmd".

(** C6: the command fields one tick assigns.  Before start-up completes
    the tick writes "cmd" = "start" and "my-time" = now, whatever the
    minute; afterwards it writes the "status" command with the two-element
    state array exactly when the minute is a multiple of 5, and nothing
    otherwise; "cmd" is assigned at most once. *)
Theorem statusUpdate_command_policy s :
  (startUpComplete s = false ->
     cmd_writes s = [("cmd"%string, VStr "start"); ("my-time"%string, VInt (rtc_epoch s))]
     /\ lookup "cmd" (apply_writes (cmdJson s) (cmd_writes s)) = Some (VStr "start")
     /\ lookup "my-time" (apply_writes (cmdJson s) (cmd_writes s))
        = Some (VInt (rtc_epoch s)))
  /\ (startUpComplete s = true -> getMinutes (rtc_epoch s) mod 5 = 0 ->
     cmd_writes s =
       [("cmd"%string, VStr "status"); ("my-time"%string, VInt (rtc_epoch s));
        ("state"%string, VArr [VBool (fst (powerState s)); VBool (snd (powerState s))])]
     /\ lookup "cmd" (apply_writes (cmdJson s) (cmd_writes s)) = Some (VStr "status"))
  /\ (startUpComplete s = true -> getMinutes (rtc_epoch s) mod 5 <> 0 ->
     cmd_writes s = [] /\ apply_writes (cmdJson s) (cmd_writes s) = cmdJson s)
  /\ (List.length (filter is_cmd_key (cmd_writes s)) <= 1)%nat.
Proof.
  unfold cmd_writes, apply_writes.
  destruct (startUpComplete s) eqn:Hs; simpl.
  - destruct (getMinutes (rtc_epoch s) mod 5 =? 0) eqn:Hm; simpl.
    + apply Z.eqb_eq in Hm.
      split; [discriminate|].
      split; [intros _ _; split; [reflexivity|]|].
      * rewrite lookup_doc_set_other by discriminate.
        rewrite lookup_doc_set_other by discriminate.
        apply lookup_doc_set_same.
      * split; [intros _ Hne; contradiction|]. simpl; lia.
    + apply Z.eqb_neq in Hm.
      split; [discriminate|].
      split; [intros _ H; contradiction|].
      split; [intros _ _; split; reflexivity|]. simpl; lia.
  - split.
    + intros _; split; [reflexivity|]; split.
      * rewrite lookup_doc_set_other by discriminate; apply lookup_doc_set_same.
      * apply lookup_doc_set_same.
    + split; [discriminate|]; split; [discriminate|]. simpl; lia.
Qed.

Lemma checkSchedules_txInProg s : txInProg (fst (checkSchedules s)) = txInProg s.
Proof. unfold checkSchedules; destruct (Bool.eqb _ _); reflexivity. Qed.

Lemma do_send_txInProg busy s : txInProg (fst (do_send busy s)) = txInProg s.
Proof. unfold do_send; destruct busy; [|destruct (0 <? _)%nat]; reflexivity. Qed.

Lemma statusUpdate_txInProg busy s :
  txInProg (fst (statusUpdate busy s)) = txInProg s.
Proof.
  unfold statusUpdate.
  set (s1 := set_cmdJson _ s).
  assert (H1 : txInProg s1 = txInProg s) by reflexivity.
  destruct (if startUpComplete s1 then checkSchedules s1 else (s1, [])) as [s2 o2] eqn:E2.
  assert (H2 : txInProg s2 = txInProg s).
  { destruct (startUpComplete s1).
    - rewrite <- H1, <- (checkSchedules_txInProg s1), E2; reflexivity.
    - injection E2 as <- _; exact H1. }
  destruct (negb (txInProg s2)).
  - destruct (do_send busy s2) as [s3 o3] eqn:E3; simpl.
    rewrite <- H2, <- (do_send_txInProg busy s2), E3; reflexivity.
  - exact H2.
Qed.

(** No event ever raises [txInProg]: the only assignment in main.cpp is
    [txInProg = false] on [EV_TXCOMPLETE]. *)
Lemma step_never_raises_txInProg dm dj sh sm ev s s' o :
  step dm dj sh sm ev s = Some (s', o) -> txInProg s' = true -> txInProg s = true.
Proof.
  intros Hstep Ht.
  destruct ev; simpl in Hstep.
  - injection Hstep as Hst.
    rewrite <- (statusUpdate_txInProg busy s), Hst; exact Ht.
  - unfold processDownlink in Hstep.
    destruct (List.length frame =? 0)%nat.
    + injection Hstep as <- <-; discriminate Ht.
    + destruct (dm frame) as [err pj]; destruct err;
        try (injection Hstep as <- <-; discriminate Ht).
      destruct (equalsIgnoreCase _ _); [|injection Hstep as <- <-; discriminate Ht].
      destruct (load _ _ _ _ _ _); [|discriminate].
      injection Hstep as Hs'.
      apply (f_equal (fun p => txInProg (fst p))) in Hs'.
      rewrite checkSchedules_txInProg in Hs'; simpl in Hs'; congruence.
  - unfold processDownlink in Hstep.
    destruct (List.length frame =? 0)%nat.
    + injection Hstep as <- <-; exact Ht.
    + destruct (dm frame) as [err pj]; destruct err;
        try (injection Hstep as <- <-; exact Ht).
      destruct (equalsIgnoreCase _ _); [|injection Hstep as <- <-; exact Ht].
      destruct (load _ _ _ _ _ _); [|discriminate].
      injection Hstep as Hs'.
      apply (f_equal (fun p => txInProg (fst p))) in Hs'.
      rewrite checkSchedules_txInProg in Hs'; simpl in Hs'; congruence.
  - injection Hstep as <- <-; exact Ht.
  - injection Hstep as <- <-; destruct ref; exact Ht.
  - injection Hstep as <- <-; exact Ht.
  - injection Hstep as <- <-; exact Ht.
Qed.

(** C7, evaluated: from power-on, the first tick hands the "start"
    command to LMIC, and [txInProg] is still [false] afterwards. *)
Theorem statusUpdate_send_leaves_txInProg_false :
  statusUpdate false (initial_engine 1000)
  = (initial_engine 1000,
     [TxData [("cmd"%string, VStr "start"); ("my-time"%string, VInt 1000)]])
  /\ txInProg (fst (statusUpdate false (initial_engine 1000))) = false.
Proof. split; reflexivity. Qed.

(** ** Downlink decoding *)

(** A two-digit decimal character. *)
Definition digit_char (n : Z) : ascii := ascii_of_nat (48 + Z.to_nat n).

(** The "tm" text "HHMM" of an hour and minute. *)
Definition hhmm (h m : Z) : string :=
  String (digit_char (h / 10)) (String (digit_char (h mod 10))
    (String (digit_char (m / 10)) (String (digit_char (m mod 10)) EmptyString))).

(** The byte [atoi] meets after the two copied characters is no digit. *)
Definition lead_non_digit (l : list ascii) : Prop :=
  match l with c :: _ => is_digit c = false | [] => True end.

(** A well-formed "cmd-data" element for entry [x]: it decodes without
    error to an object with "st", "dow" (0-6) and "tm" = "HHMM". *)
Definition encodes (deserializeJson : value -> DeserializationError * value)
    (e : value) (x : Schedule.t) : Prop :=
  exists fs, deserializeJson e = (DeOk, VObj fs)
    /\ lookup "st" fs = Some (VBool (Schedule.powerState x))
    /\ lookup "dow" fs = Some (VInt (Schedule.dow x)) /\ 0 <= Schedule.dow x <= 6
    /\ lookup "tm" fs = Some (VStr (hhmm (Schedule.hour x) (Schedule.min x)))
    /\ 0 <= Schedule.hour x <= 23 /\ 0 <= Schedule.min x <= 59.

Lemma digit_char_facts a :
  0 <= a <= 9 ->
  is_digit (digit_char a) = true
  /\ Z.of_nat (nat_of_ascii (digit_char a) - 48) = a
  /\ is_space (digit_char a) = false
  /\ Ascii.eqb (digit_char a) "-"%char = false
  /\ Ascii.eqb (digit_char a) "+"%char = false
  /\ Ascii.eqb (digit_char a) Ascii.zero = false.
Proof.
  intros Ha.
  assert (a = 0 \/ a = 1 \/ a = 2 \/ a = 3 \/ a = 4 \/ a = 5 \/ a = 6 \/ a = 7
          \/ a = 8 \/ a = 9) as Hc by lia.
  repeat destruct Hc as [->|Hc]; [..|subst a]; vm_compute; repeat split.
Qed.

Lemma atoi_two_digits a b junk :
  0 <= a <= 9 -> 0 <= b <= 9 -> lead_non_digit junk ->
  atoi (digit_char a :: digit_char b :: junk) = a * 10 + b.
Proof.
  intros Ha Hb Hj.
  destruct (digit_char_facts a Ha) as (Da & Va & Sa & Ma & Pa & _).
  destruct (digit_char_facts b Hb) as (Db & Vb & _).
  set (c1 := digit_char a) in *; set (c2 := digit_char b) in *.
  clearbody c1 c2.
  unfold atoi; simpl; rewrite Sa, Ma, Pa; simpl; rewrite Da, Va; simpl; rewrite Db, Vb.
  destruct junk as [|c junk]; simpl in *; [|rewrite Hj]; lia.
Qed.

Lemma decode_entry_wellformed dj sh sm e x :
  encodes dj e x -> lead_non_digit sh -> lead_non_digit sm ->
  decode_entry dj sh sm e = Some x.
Proof.
  destruct x as [st d h m].
  intros (fs & Hd & Hst & Hdow & Hdr & Htm & Hh & Hm) Hsh Hsm; simpl in *.
  assert (H1 : 0 <= h / 10 <= 9)
    by (split; [apply Z.div_pos|apply Z.div_le_upper_bound]; lia).
  assert (H2 : 0 <= h mod 10 <= 9) by (pose proof (Z.mod_pos_bound h 10); lia).
  assert (H3 : 0 <= m / 10 <= 9)
    by (split; [apply Z.div_pos|apply Z.div_le_upper_bound]; lia).
  assert (H4 : 0 <= m mod 10 <= 9) by (pose proof (Z.mod_pos_bound m 10); lia).
  assert (E1 : h / 10 * 10 + h mod 10 = h) by (pose proof (Z.div_mod h 10); lia).
  assert (E2 : m / 10 * 10 + m mod 10 = m) by (pose proof (Z.div_mod m 10); lia).
  pose proof (atoi_two_digits _ _ _ H1 H2 Hsh) as A1.
  pose proof (atoi_two_digits _ _ _ H3 H4 Hsm) as A2.
  destruct (digit_char_facts _ H1) as (_ & _ & _ & _ & _ & Z1).
  destruct (digit_char_facts _ H2) as (_ & _ & _ & _ & _ & Z2).
  destruct (digit_char_facts _ H3) as (_ & _ & _ & _ & _ & Z3).
  destruct (digit_char_facts _ H4) as (_ & _ & _ & _ & _ & Z4).
  unfold decode_entry; rewrite Hd; unfold snd, obj_get; rewrite Htm.
  unfold hhmm.
  set (c1 := digit_char (h / 10)) in *; set (c2 := digit_char (h mod 10)) in *;
  set (c3 := digit_char (m / 10)) in *; set (c4 := digit_char (m mod 10)) in *.
  clearbody c1 c2 c3 c4.
  unfold as_cstr; simpl list_ascii_of_string; unfold c_chars.
  rewrite Z1, Z2, Z3, Z4.
  unfold strncpy2; simpl.
  rewrite A1, A2, E1, E2, Hst, Hdow; simpl.
  replace ((-2147483648 <=? d) && (d <=? 2147483647)) with true
    by (symmetry; apply andb_true_intro; split; apply Z.leb_le; lia).
  reflexivity.
Qed.

Lemma nth_set_app {A} (pre : list A) x y post :
  nth_set (List.length pre) x (pre ++ y :: post) = Some (pre ++ x :: post).
Proof. induction pre as [|a pre IH]; simpl; [reflexivity|rewrite IH; reflexivity]. Qed.

Lemma load_spec dj sh sm elems xs :
  Forall2 (fun e x => decode_entry dj sh sm e = Some x) elems xs ->
  forall done rest, (List.length elems <= List.length rest)%nat ->
  load dj sh sm (List.length done) elems (done ++ rest)
  = Some (done ++ xs ++ skipn (List.length xs) rest).
Proof.
  induction 1 as [|e x elems xs Hd HF IH]; intros done rest Hlen.
  - reflexivity.
  - destruct rest as [|r rest]; simpl in Hlen; [lia|].
    simpl; rewrite Hd, nth_set_app.
    replace (S (List.length done)) with (List.length (done ++ [x]))
      by (rewrite length_app; simpl; lia).
    replace (done ++ x :: rest) with ((done ++ [x]) ++ rest)
      by (rewrite <- app_assoc; reflexivity).
    rewrite IH by lia; rewrite <- app_assoc; reflexivity.
Qed.

Lemma processDownlink_init dm dj sh sm frame s payload c t elems xs :
  (List.length frame <> 0)%nat ->
  dm frame = (DeOk, payload) ->
  obj_get payload "cmd" = Some (VStr c) ->
  equalsIgnoreCase (list_ascii_of_string c) (list_ascii_of_string "init") = true ->
  obj_get payload "cur-time" = Some (VInt t) -> 0 <= t < 4294967296 ->
  as_array (obj_get payload "cmd-data") = elems ->
  Forall2 (fun e x => decode_entry dj sh sm e = Some x) elems xs ->
  (List.length elems <= 25)%nat -> List.length (powerSched s) = 25%nat ->
  processDownlink dm dj sh sm frame s
  = Some (checkSchedules
            (mkEngine t (xs ++ skipn (List.length xs) (powerSched s))
               (Z.of_nat (List.length xs)) (powerState s) true
               (txInProg s) (timeSet s) (cmdJson s))).
Proof.
  intros Hf Hdm Hcmd Hinit Hcur Ht Hcd HF Hn Hs.
  pose proof (Forall2_length HF) as Hlen.
  unfold processDownlink.
  replace (List.length frame =? 0)%nat with false by (symmetry; apply Nat.eqb_neq; exact Hf).
  rewrite Hdm, Hcmd; unfold as_String; rewrite Hinit, Hcd, Hcur.
  unfold as_u32.
  replace ((0 <=? t) && (t <? 4294967296)) with true
    by (symmetry; apply andb_true_intro; split; [apply Z.leb_le|apply Z.ltb_lt]; lia).
  unfold u8; rewrite Z.mod_small by lia.
  rewrite Nat2Z.id, firstn_all2 by lia.
  rewrite <- Hlen.
  pose proof (load_spec dj sh sm elems xs HF [] (powerSched s)) as HL.
  simpl in HL; rewrite HL by lia.
  rewrite Hlen; reflexivity.
Qed.

Lemma processDownlink_decode_error_no_change dm dj sh sm frame s err d :
  dm frame = (err, d) -> err <> DeOk ->
  processDownlink dm dj sh sm frame s = Some (s, []).
Proof.
  intros Hdm Herr; unfold processDownlink.
  destruct (List.length frame =? 0)%nat; [reflexivity|].
  rewrite Hdm; destruct err; [contradiction|reflexivity..].
Qed.

Lemma step_keeps_startUpComplete dm dj sh sm ev s s' o :
  step dm dj sh sm ev s = Some (s', o) ->
  startUpComplete s = true -> startUpComplete s' = true.
Proof.
  intros Hstep Hs.
  assert (Hcs : forall x, startUpComplete (fst (checkSchedules x)) = startUpComplete x)
    by (intros x; unfold checkSchedules; destruct (Bool.eqb _ _); reflexivity).
  assert (Hpd : forall f x, startUpComplete x = true ->
            processDownlink dm dj sh sm f x = Some (s', o) -> startUpComplete s' = true).
  { intros f x Hx Hp; unfold processDownlink in Hp.
    destruct (List.length f =? 0)%nat; [injection Hp as <- _; exact Hx|].
    destruct (dm f) as [err pj]; destruct err; try (injection Hp as <- _; exact Hx).
    destruct (equalsIgnoreCase _ _); [|injection Hp as <- _; exact Hx].
    destruct (load _ _ _ _ _ _); [|discriminate].
    injection Hp as Hp; apply (f_equal (fun p => startUpComplete (fst p))) in Hp.
    rewrite Hcs in Hp; simpl in Hp; congruence. }
  destruct ev; simpl in Hstep.
  - injection Hstep as Hst.
    apply (f_equal (fun p => startUpComplete (fst p))) in Hst; simpl in Hst.
    rewrite <- Hst; unfold statusUpdate.
    set (s1 := set_cmdJson _ s).
    assert (H1 : startUpComplete s1 = true) by exact Hs.
    destruct (if startUpComplete s1 then checkSchedules s1 else (s1, [])) as [s2 o2] eqn:E2.
    assert (H2 : startUpComplete s2 = true).
    { rewrite H1 in E2; rewrite <- H1, <- (Hcs s1), E2; reflexivity. }
    destruct (negb (txInProg s2)); [|exact H2].
    unfold do_send; destruct busy; [exact H2|].
    destruct (0 <? _)%nat; exact H2.
  - exact (Hpd _ (set_txInProg false s) Hs Hstep).
  - exact (Hpd _ _ Hs Hstep).
  - injection Hstep as <- _; exact Hs.
  - injection Hstep as <- _; destruct ref; exact Hs.
  - injection Hstep as <- _; exact Hs.
  - injection Hstep as <- _; exact Hs.
Qed.

Lemma run_keeps_startUpComplete dm dj sh sm evs s s' o :
  run dm dj sh sm evs s = Some (s', o) ->
  startUpComplete s = true -> startUpComplete s' = true.
Proof.
  revert s o; induction evs as [|ev evs IH]; intros s o Hrun Hs; simpl in Hrun.
  - injection Hrun as <- _; exact Hs.
  - destruct (step dm dj sh sm ev s) as [[s1 o1]|] eqn:E; [|discriminate].
    destruct (run dm dj sh sm evs s1) as [[s2 o2]|] eqn:E2; [|discriminate].
    injection Hrun as <- _.
    exact (IH s1 o2 E2 (step_keeps_startUpComplete _ _ _ _ _ _ _ _ E Hs)).
Qed.

(** *** Sample downlinks *)

Definition init_doc (t : Z) (elems : list value) : value :=
  VObj [("cmd"%string, VStr "init"); ("cur-time"%string, VInt t);
        ("cmd-data"%string, VArr elems)].

Definition entry_doc (st : bool) (d : Z) (tm : string) : value :=
  VObj [("st"%string, VBool st); ("dow"%string, VInt d); ("tm"%string, VStr tm)].

(** A received frame ([LMIC.dataLen = 1]). *)
Definition frame1 : list Byte.byte := [Byte.x01].

(** A frame decoding without error to [d]. *)
Definition msgpack_yields (d : value) : list Byte.byte -> DeserializationError * value :=
  fun _ => (DeOk, d).

(** Elements sent as maps, converted and parsed back to themselves. *)
Definition elem_is_doc : value -> DeserializationError * value := fun e => (DeOk, e).

(** C3, evaluated: "tm" = "0830" with the byte after the copied "08" in
    [hour] holding '5' ([strncpy] wrote no terminator) loads the hour 85;
    the same downlink with a NUL there loads 08:30. *)
Theorem processDownlink_hour_unterminated :
  option_map (fun p => active (fst p))
    (processDownlink (msgpack_yields (init_doc 1600000000 [entry_doc true 1 "0830"]))
       elem_is_doc ["5"%char] [] frame1 (initial_engine 0))
  = Some [Schedule.mk true 1 85 30]
  /\ option_map (fun p => active (fst p))
    (processDownlink (msgpack_yields (init_doc 1600000000 [entry_doc true 1 "0830"]))
       elem_is_doc [Ascii.zero] [] frame1 (initial_engine 0))
  = Some [Schedule.mk true 1 8 30].
Proof. split; vm_compute; reflexivity. Qed.

(** The element text [{'st':true,'dow':1,'tm':'0800',}] (trailing comma):
    ArduinoJson reports [InvalidInput] and leaves the three members it had
    parsed in [oneSched]. *)
Definition trailing_comma_elem : value := VStr "{'st':true,'dow':1,'tm':'0800',}".

Definition partial_parse : value -> DeserializationError * value :=
  fun _ => (InvalidInput, entry_doc true 1 "0800").

(** C5, evaluated: the sub-document fails to decode, yet the clock, the
    table, its count and [startUpComplete] all change. *)
Theorem processDownlink_subdoc_error_applied :
  fst (partial_parse trailing_comma_elem) = InvalidInput
  /\ option_map fst
       (processDownlink (msgpack_yields (init_doc 1600000000 [trailing_comma_elem]))
          partial_parse [] [] frame1 (initial_engine 0))
     = Some (mkEngine 1600000000 (on_0800 :: repeat default_schedule 24) 1
               (false, false) true false false []).
Proof. split; vm_compute; reflexivity. Qed.

(** C10: an "init" (any letter case) whose "cmd-data" is absent or empty
    loads zero entries and still completes start-up, for good: no later
    tick writes "start", and a tick at a minute multiple of 5 writes
    "status". *)
Theorem processDownlink_init_without_schedule dm dj sh sm frame s payload c :
  (List.length frame <> 0)%nat ->
  dm frame = (DeOk, payload) ->
  obj_get payload "cmd" = Some (VStr c) ->
  equalsIgnoreCase (list_ascii_of_string c) (list_ascii_of_string "init") = true ->
  (obj_get payload "cmd-data" = None \/ obj_get payload "cmd-data" = Some (VArr [])) ->
  exists s' o, processDownlink dm dj sh sm frame s = Some (s', o)
    /\ schedCount s' = 0 /\ active s' = [] /\ startUpComplete s' = true
    /\ (forall evs s'' o', run dm dj sh sm evs s' = Some (s'', o') ->
          startUpComplete s'' = true
          /\ ~ In ("cmd"%string, VStr "start") (cmd_writes s'')
          /\ (getMinutes (rtc_epoch s'') mod 5 = 0 ->
              In ("cmd"%string, VStr "status") (cmd_writes s''))).
Proof.
  intros Hf Hdm Hcmd Hinit Hcd.
  unfold processDownlink.
  replace (List.length frame =? 0)%nat with false by (symmetry; apply Nat.eqb_neq; exact Hf).
  rewrite Hdm, Hcmd; unfold as_String; rewrite Hinit.
  replace (as_array (obj_get payload "cmd-data")) with (@nil value)
    by (destruct Hcd as [-> | ->]; reflexivity).
  simpl.
  set (s1 := mkEngine _ _ _ _ _ _ _ _).
  exists (fst (checkSchedules s1)), (snd (checkSchedules s1)).
  split; [destruct (checkSchedules s1); reflexivity|].
  assert (Hsu : startUpComplete (fst (checkSchedules s1)) = true)
    by (unfold checkSchedules; destruct (Bool.eqb _ _); reflexivity).
  split; [unfold checkSchedules; destruct (Bool.eqb _ _); reflexivity|].
  split; [rewrite checkSchedules_active; reflexivity|].
  split; [exact Hsu|].
  intros evs s'' o' Hrun.
  pose proof (run_keeps_startUpComplete _ _ _ _ _ _ _ _ Hrun Hsu) as H''.
  split; [exact H''|].
  unfold cmd_writes; rewrite H''; simpl.
  split.
  - destruct (getMinutes (rtc_epoch s'') mod 5 =? 0); simpl;
      [intros [H|[H|[H|[]]]]; discriminate H | intros []].
  - intros Hm; rewrite Hm; simpl; left; reflexivity.
Qed.

Lemma processDownlink_init_without_schedule_witness :
  exists s' o,
    processDownlink (msgpack_yields (VObj [("cmd"%string, VStr "INIT"); ("cur-time"%string, VInt 1000)]))
      elem_is_doc [] [] frame1 (initial_engine 0) = Some (s', o)
    /\ schedCount s' = 0 /\ active s' = [] /\ startUpComplete s' = true
    /\ (forall evs s'' o', run (msgpack_yields (VObj [("cmd"%string, VStr "INIT"); ("cur-time"%string, VInt 1000)]))
                            elem_is_doc [] [] evs s' = Some (s'', o') ->
          startUpComplete s'' = true
          /\ ~ In ("cmd"%string, VStr "start") (cmd_writes s'')
          /\ (getMinutes (rtc_epoch s'') mod 5 = 0 ->
              In ("cmd"%string, VStr "status") (cmd_writes s''))).
Proof.
  apply (processDownlink_init_without_schedule _ _ _ _ frame1 (initial_engine 0)
           (VObj [("cmd"%string, VStr "INIT"); ("cur-time"%string, VInt 1000)]) "INIT").
  - discriminate.
  - reflexivity.
  - reflexivity.
  - vm_compute; reflexivity.
  - left; reflexivity.
Defined.

(** ** [timeSet] is never read *)

Definition strip (p : Engine * list obs) : Engine * list obs :=
  (set_timeSet false (fst p), snd p).

Lemma checkSchedules_timeSet b s :
  checkSchedules (set_timeSet b s)
  = (set_timeSet b (fst (checkSchedules s)), snd (checkSchedules s)).
Proof.
  destruct s; unfold checkSchedules; simpl.
  destruct (Bool.eqb _ _); reflexivity.
Qed.

Lemma do_send_timeSet busy b s :
  do_send busy (set_timeSet b s)
  = (set_timeSet b (fst (do_send busy s)), snd (do_send busy s)).
Proof.
  destruct s; unfold do_send; simpl.
  destruct busy; [reflexivity|]; destruct (0 <? _)%nat; reflexivity.
Qed.

Lemma statusUpdate_timeSet busy b s :
  statusUpdate busy (set_timeSet b s)
  = (set_timeSet b (fst (statusUpdate busy s)), snd (statusUpdate busy s)).
Proof.
  unfold statusUpdate.
  change (set_cmdJson (apply_writes (cmdJson (set_timeSet b s)) (cmd_writes (set_timeSet b s)))
            (set_timeSet b s))
    with (set_timeSet b (set_cmdJson (apply_writes (cmdJson s) (cmd_writes s)) s)).
  set (s1 := set_cmdJson _ s).
  change (startUpComplete (set_timeSet b s1)) with (startUpComplete s1).
  destruct (startUpComplete s1).
  - rewrite checkSchedules_timeSet; destruct (checkSchedules s1) as [s2 o2]; simpl.
    change (txInProg (set_timeSet b s2)) with (txInProg s2).
    destruct (negb (txInProg s2)); [|reflexivity].
    rewrite do_send_timeSet; destruct (do_send busy s2); reflexivity.
  - change (txInProg (set_timeSet b s1)) with (txInProg s1).
    destruct (negb (txInProg s1)); [|reflexivity].
    rewrite do_send_timeSet; destruct (do_send busy s1); reflexivity.
Qed.

Lemma processDownlink_timeSet dm dj sh sm frame b s :
  processDownlink dm dj sh sm frame (set_timeSet b s)
  = option_map (fun p => (set_timeSet b (fst p), snd p))
      (processDownlink dm dj sh sm frame s).
Proof.
  destruct s; unfold processDownlink; simpl.
  destruct (List.length frame =? 0)%nat; [reflexivity|].
  destruct (dm frame) as [err pj]; destruct err; try reflexivity.
  destruct (equalsIgnoreCase _ _); [|reflexivity].
  destruct (load _ _ _ _ _ _); [|reflexivity].
  unfold checkSchedules; simpl.
  destruct (Bool.eqb _ _); reflexivity.
Qed.

Lemma step_strip dm dj sh sm ev b s :
  option_map strip (step dm dj sh sm ev (set_timeSet b s))
  = option_map strip (step dm dj sh sm ev s).
Proof.
  destruct ev; simpl.
  - rewrite statusUpdate_timeSet; destruct s; reflexivity.
  - change (set_txInProg false (set_timeSet b s)) with (set_timeSet b (set_txInProg false s)).
    rewrite processDownlink_timeSet.
    destruct (processDownlink _ _ _ _ _ _) as [[s' o]|]; [|reflexivity].
    destruct s'; reflexivity.
  - rewrite processDownlink_timeSet.
    destruct (processDownlink _ _ _ _ _ _) as [[s' o]|]; [|reflexivity].
    destruct s'; reflexivity.
  - destruct s; reflexivity.
  - destruct ref; destruct s; reflexivity.
  - destruct s; reflexivity.
  - destruct s; reflexivity.
Qed.

Lemma run_strip dm dj sh sm evs s1 s2 :
  set_timeSet false s1 = set_timeSet false s2 ->
  option_map strip (run dm dj sh sm evs s1) = option_map strip (run dm dj sh sm evs s2).
Proof.
  revert s1 s2; induction evs as [|ev evs IH]; intros s1 s2 H12; simpl.
  - unfold strip; simpl; rewrite H12; reflexivity.
  - assert (Hs : option_map strip (step dm dj sh sm ev s1)
                 = option_map strip (step dm dj sh sm ev s2)).
    { rewrite <- (step_strip dm dj sh sm ev false s1),
              <- (step_strip dm dj sh sm ev false s2), H12; reflexivity. }
    destruct (step dm dj sh sm ev s1) as [[a1 o1]|];
      destruct (step dm dj sh sm ev s2) as [[a2 o2]|];
      simpl in Hs; try discriminate; [|reflexivity].
    pose proof (f_equal (fun x => match x with Some p => fst p | None => a1 end) Hs) as Ha.
    pose proof (f_equal (fun x => match x with Some p => snd p | None => o1 end) Hs) as Ho.
    simpl in Ha, Ho; subst o2.
    specialize (IH a1 a2 Ha).
    destruct (run dm dj sh sm evs a1) as [[x1 p1]|];
      destruct (run dm dj sh sm evs a2) as [[x2 p2]|];
      simpl in IH; try discriminate; [|reflexivity].
    pose proof (f_equal (fun x => match x with Some p => fst p | None => x1 end) IH) as Hx.
    pose proof (f_equal (fun x => match x with Some p => snd p | None => p1 end) IH) as Hp.
    simpl in Hx, Hp; subst p2.
    unfold strip; simpl; rewrite Hx; reflexivity.
Qed.

(** C9: two engines that differ only in [timeSet] go through every event
    sequence alike: same outcome, same state apart from [timeSet] (clock,
    table, outputs, pending command, flags) and the same effects (frames
    handed to LMIC, power transitions). *)
Theorem timeSet_unobservable dm dj sh sm evs s1 s2 :
  set_timeSet false s1 = set_timeSet false s2 ->
  option_map strip (run dm dj sh sm evs s1) = option_map strip (run dm dj sh sm evs s2).
Proof. exact (run_strip dm dj sh sm evs s1 s2). Qed.

Lemma timeSet_unobservable_witness :
  set_timeSet false (initial_engine 1000)
  = set_timeSet false (set_timeSet true (initial_engine 1000))
  /\ option_map strip
       (run (msgpack_yields (init_doc 1200 [entry_doc true 4 "0000"])) elem_is_doc [] []
          [EvTick false; EvTxComplete frame1; EvClock 1500; EvTick false]
          (initial_engine 1000))
     = option_map strip
       (run (msgpack_yields (init_doc 1200 [entry_doc true 4 "0000"])) elem_is_doc [] []
          [EvTick false; EvTxComplete frame1; EvClock 1500; EvTick false]
          (set_timeSet true (initial_engine 1000))).
Proof.
  split; [reflexivity|].
  apply timeSet_unobservable; reflexivity.
Defined.

(** ** Further properties of the firmware *)

(** *** Calendar arithmetic *)

Lemma wrap32_small x : -2147483648 <= x < 2147483648 -> wrap32 x = x.
Proof. intros H; unfold wrap32; rewrite Z.mod_small by lia; lia. Qed.

Lemma dayOfWeek_offset now tz_offset :
  -596523 <= tz_offset <= 596523 ->
  dayOfWeek now tz_offset
  = Z.rem (wrap32 (wrap32 (Z.quot (now + tz_offset * 3600) 86400) + 4)) 7.
Proof.
  intros Htz; unfold dayOfWeek.
  rewrite (wrap32_small (tz_offset * 60)) by lia.
  rewrite (wrap32_small (tz_offset * 60 * 60)) by lia.
  replace (tz_offset * 60 * 60) with (tz_offset * 3600) by lia; reflexivity.
Qed.

(** At UTC the day-of-week depends on a non-negative epoch only through
    its day number. *)
Lemma dayOfWeek_same_day t t' :
  0 <= t -> 0 <= t' -> t / 86400 = t' / 86400 -> dayOfWeek t 0 = dayOfWeek t' 0.
Proof.
  intros Ht Ht' Hd.
  rewrite !(dayOfWeek_offset _ 0) by lia.
  rewrite !Z.mul_0_l, !Z.add_0_r, !Z.quot_div_nonneg by lia.
  rewrite Hd; reflexivity.
Qed.

Lemma getHours_hour t : 0 <= t -> getHours t = (t / 3600) mod 24.
Proof.
  intros Ht; unfold getHours.
  replace 86400 with (3600 * 24) by reflexivity.
  rewrite Z.rem_mul_r by lia.
  rewrite Z.mul_comm, Z.div_add by lia.
  rewrite Z.div_small by (apply Z.mod_pos_bound; lia).
  reflexivity.
Qed.

Lemma calendar_fields t :
  0 <= t < 4294967296 ->
  dayOfWeek t 0 = (t / 3600 / 24 + 4) mod 7
  /\ getHours t = (t / 3600) mod 24
  /\ getMinutes t = (t mod 3600) / 60.
Proof.
  intros Ht.
  assert (Hq : 0 <= t / 86400) by (apply Z.div_pos; lia).
  assert (Hq' : t / 86400 < 49711) by (apply Z.div_lt_upper_bound; lia).
  split; [|split; [|reflexivity]].
  - rewrite (dayOfWeek_offset t 0) by lia.
    replace (t + 0 * 3600) with t by lia.
    rewrite Z.quot_div_nonneg by lia.
    rewrite (wrap32_small (t / 86400)) by lia.
    rewrite (wrap32_small (t / 86400 + 4)) by lia.
    rewrite Z.rem_mod_nonneg by lia.
    rewrite Z.div_div by lia; reflexivity.
  - apply getHours_hour; lia.
Qed.

(** For a 32-bit epoch and an offset whose [int] product [tz_offset * 3600]
    does not overflow, [dayOfWeek] on a local time at or after the epoch is
    a weekday 0-6. *)
Theorem dayOfWeek_range now tz_offset :
  0 <= now < 4294967296 -> -596523 <= tz_offset <= 596523 ->
  0 <= now + tz_offset * 3600 ->
  0 <= dayOfWeek now tz_offset <= 6.
Proof.
  intros Hn Htz H.
  rewrite dayOfWeek_offset by exact Htz.
  rewrite Z.quot_div_nonneg by lia.
  assert (0 <= (now + tz_offset * 3600) / 86400) by (apply Z.div_pos; lia).
  assert ((now + tz_offset * 3600) / 86400 < 74568) by (apply Z.div_lt_upper_bound; lia).
  rewrite (wrap32_small ((now + tz_offset * 3600) / 86400)) by lia.
  rewrite (wrap32_small ((now + tz_offset * 3600) / 86400 + 4)) by lia.
  rewrite Z.rem_mod_nonneg by lia.
  pose proof (Z.mod_pos_bound ((now + tz_offset * 3600) / 86400 + 4) 7); lia.
Qed.

Lemma dayOfWeek_range_witness :
  (0 <= 1600000000 < 4294967296 /\ -596523 <= -8 <= 596523
   /\ 0 <= 1600000000 + -8 * 3600)
  /\ 0 <= dayOfWeek 1600000000 (-8) <= 6.
Proof. split; [lia|apply dayOfWeek_range; lia]. Defined.

(** C's [/] truncates toward zero: for an offset whose [int] product does
    not overflow, every local time in the day before the epoch is counted
    as day 0, so it gets Thursday (4) like 1 Jan 1970. *)
Theorem dayOfWeek_day_before_epoch now tz_offset :
  -596523 <= tz_offset <= 596523 ->
  -86400 < now + tz_offset * 3600 < 0 -> dayOfWeek now tz_offset = 4.
Proof.
  intros Htz H.
  rewrite dayOfWeek_offset by exact Htz.
  assert (Hq : Z.quot (now + tz_offset * 3600) 86400 = 0)
    by (apply Z.quot_small_iff; lia).
  rewrite Hq; reflexivity.
Qed.

Lemma dayOfWeek_day_before_epoch_witness :
  (-596523 <= -8 <= 596523 /\ -86400 < 0 + -8 * 3600 < 0) /\ dayOfWeek 0 (-8) = 4.
Proof. split; [lia|apply dayOfWeek_day_before_epoch; lia]. Defined.

(** Within the 32-bit epoch range, each further 86400 seconds moves
    [dayOfWeek] one day on, modulo 7. *)
Theorem dayOfWeek_next_day t :
  0 <= t -> t + 86400 < 4294967296 ->
  dayOfWeek (t + 86400) 0 = (dayOfWeek t 0 + 1) mod 7.
Proof.
  intros Ht Hb.
  destruct (calendar_fields t ltac:(lia)) as [D _].
  destruct (calendar_fields (t + 86400) ltac:(lia)) as [D' _].
  rewrite D, D'.
  assert (E1 : (t + 86400) / 3600 = t / 3600 + 24).
  { replace (t + 86400) with (t + 24 * 3600) by lia; apply Z.div_add; lia. }
  assert (E2 : (t / 3600 + 24) / 24 = t / 3600 / 24 + 1).
  { replace (t / 3600 + 24) with (t / 3600 + 1 * 24) by lia; apply Z.div_add; lia. }
  rewrite E1, E2, Zplus_mod_idemp_l; f_equal; lia.
Qed.

Lemma dayOfWeek_next_day_witness :
  (0 <= monday_0845 /\ monday_0845 + 86400 < 4294967296)
  /\ dayOfWeek (monday_0845 + 86400) 0 = (dayOfWeek monday_0845 0 + 1) mod 7.
Proof.
  split; [unfold monday_0845; lia|].
  apply dayOfWeek_next_day; unfold monday_0845; lia.
Defined.

(** *** Schedule matching over time *)

(** Once an entry's minute threshold is reached it keeps matching for the
    rest of that clock hour. *)
Theorem sched_matches_rest_of_hour t t' e :
  0 <= t <= t' -> t' / 3600 = t / 3600 ->
  sched_matches t e = true -> sched_matches t' e = true.
Proof.
  intros Ht Hq Hm.
  assert (D : dayOfWeek t' 0 = dayOfWeek t 0).
  { apply dayOfWeek_same_day; try lia.
    replace 86400 with (3600 * 24) by reflexivity.
    rewrite <- !Z.div_div by lia; rewrite Hq; reflexivity. }
  unfold sched_matches in *.
  rewrite (getHours_hour t) in Hm by lia; rewrite (getHours_hour t') by lia.
  unfold getMinutes in *.
  rewrite D, Hq.
  apply andb_prop in Hm as [Hm Hmin]; rewrite Hm; simpl.
  apply Z.leb_le in Hmin; apply Z.leb_le.
  assert (t mod 3600 <= t' mod 3600).
  { rewrite (Z.mod_eq t 3600), (Z.mod_eq t' 3600), Hq by lia; lia. }
  etransitivity; [exact Hmin|apply Z.div_le_mono; lia].
Qed.

Lemma sched_matches_rest_of_hour_witness :
  (0 <= 4 * 86400 + 8 * 3600 + 30 * 60 <= 4 * 86400 + 8 * 3600 + 59 * 60
   /\ (4 * 86400 + 8 * 3600 + 59 * 60) / 3600 = (4 * 86400 + 8 * 3600 + 30 * 60) / 3600
   /\ sched_matches (4 * 86400 + 8 * 3600 + 30 * 60) off_0830 = true)
  /\ sched_matches (4 * 86400 + 8 * 3600 + 59 * 60) off_0830 = true.
Proof.
  split; [split; [lia|split; reflexivity]|].
  apply (sched_matches_rest_of_hour (4 * 86400 + 8 * 3600 + 30 * 60)); [lia|reflexivity..].
Defined.

Lemma sched_matches_week t e :
  0 <= t -> t + 604800 < 4294967296 ->
  sched_matches (t + 604800) e = sched_matches t e.
Proof.
  intros Ht Hb.
  destruct (calendar_fields t ltac:(lia)) as (D & H & M).
  destruct (calendar_fields (t + 604800) ltac:(lia)) as (D' & H' & M').
  unfold sched_matches; rewrite D, H, M, D', H', M'.
  assert (E1 : (t + 604800) / 3600 = t / 3600 + 168).
  { replace (t + 604800) with (t + 168 * 3600) by lia; apply Z.div_add; lia. }
  assert (E2 : (t / 3600 + 168) / 24 = t / 3600 / 24 + 7).
  { replace (t / 3600 + 168) with (t / 3600 + 7 * 24) by lia; apply Z.div_add; lia. }
  assert (E3 : (t / 3600 + 168) mod 24 = (t / 3600) mod 24).
  { replace (t / 3600 + 168) with (t / 3600 + 7 * 24) by lia; apply Z.mod_add; lia. }
  assert (E4 : (t / 3600 / 24 + 7 + 4) mod 7 = (t / 3600 / 24 + 4) mod 7).
  { replace (t / 3600 / 24 + 7 + 4) with (t / 3600 / 24 + 4 + 1 * 7) by lia;
    apply Z.mod_add; lia. }
  assert (E5 : (t + 604800) mod 3600 = t mod 3600).
  { replace (t + 604800) with (t + 168 * 3600) by lia; apply Z.mod_add; lia. }
  rewrite E1, E2, E3, E4, E5; reflexivity.
Qed.

Lemma scan_ext t1 t2 b l :
  (forall e, sched_matches t1 e = sched_matches t2 e) -> scan t1 b l = scan t2 b l.
Proof.
  intros H; revert b; induction l as [|e l IH]; intros b; simpl; [reflexivity|].
  rewrite H; apply IH.
Qed.

(** The schedule is weekly: for RTC epochs (32-bit, [rtc.getEpoch()]),
    evaluating the same table one week (604800 s) later gives the same
    outputs and the same transition markers. *)
Theorem checkSchedules_weekly s t :
  0 <= t -> t + 604800 < 4294967296 ->
  checkSchedules (set_rtc_epoch (t + 604800) s)
  = (set_rtc_epoch (t + 604800) (fst (checkSchedules (set_rtc_epoch t s))),
     snd (checkSchedules (set_rtc_epoch t s))).
Proof.
  intros Ht Hb; unfold checkSchedules; simpl.
  rewrite (scan_ext (t + 604800) t) by (intros e; apply sched_matches_week; assumption).
  destruct (Bool.eqb _ _); reflexivity.
Qed.

Lemma checkSchedules_weekly_witness :
  (0 <= monday_0845 /\ monday_0845 + 604800 < 4294967296)
  /\ checkSchedules (set_rtc_epoch (monday_0845 + 604800) monday_engine)
     = (set_rtc_epoch (monday_0845 + 604800) (fst (checkSchedules (set_rtc_epoch monday_0845 monday_engine))),
        snd (checkSchedules (set_rtc_epoch monday_0845 monday_engine))).
Proof.
  split; [unfold monday_0845; lia|].
  apply checkSchedules_weekly; unfold monday_0845; lia.
Defined.

(** *** One tick, in closed form *)

Lemma checkSchedules_shape s :
  fst (checkSchedules s)
  = set_powerState (scan (rtc_epoch s) false (active s), snd (powerState s)) s.
Proof.
  unfold checkSchedules.
  destruct (Bool.eqb (fst (powerState s)) (scan (rtc_epoch s) false (active s))) eqn:E;
    [|reflexivity].
  apply Bool.eqb_prop in E.
  destruct s as [ep ps sc [p0 p1] su tx ts cj]; unfold set_powerState; simpl in *.
  rewrite <- E; reflexivity.
Qed.

Lemma checkSchedules_obs_cmdJson d s :
  snd (checkSchedules (set_cmdJson d s)) = snd (checkSchedules s).
Proof. unfold checkSchedules; simpl; destruct (Bool.eqb _ _); reflexivity. Qed.

Lemma statusUpdate_eq busy s :
  statusUpdate busy s =
  (set_cmdJson
     (if negb busy && negb (txInProg s)
         && (0 <? List.length (apply_writes (cmdJson s) (cmd_writes s)))%nat
      then [] else apply_writes (cmdJson s) (cmd_writes s))
     (set_powerState
        (if startUpComplete s
         then (scan (rtc_epoch s) false (active s), snd (powerState s))
         else powerState s) s),
   (if startUpComplete s then snd (checkSchedules s) else [])
   ++ (if negb busy && negb (txInProg s)
          && (0 <? List.length (apply_writes (cmdJson s) (cmd_writes s)))%nat
       then [TxData (apply_writes (cmdJson s) (cmd_writes s))] else [])).
Proof.
  unfold statusUpdate.
  set (p := apply_writes (cmdJson s) (cmd_writes s)).
  change (startUpComplete (set_cmdJson p s)) with (startUpComplete s).
  destruct (startUpComplete s) eqn:Hs.
  - pose proof (checkSchedules_shape (set_cmdJson p s)) as Hsh.
    pose proof (checkSchedules_obs_cmdJson p s) as Hob.
    change (active (set_cmdJson p s)) with (active s) in Hsh.
    change (rtc_epoch (set_cmdJson p s)) with (rtc_epoch s) in Hsh.
    change (powerState (set_cmdJson p s)) with (powerState s) in Hsh.
    destruct (checkSchedules (set_cmdJson p s)) as [s2 o2]; simpl in Hsh, Hob.
    subst s2 o2.
    change (txInProg (set_powerState (scan (rtc_epoch s) false (active s), snd (powerState s))
                        (set_cmdJson p s))) with (txInProg s).
    destruct (txInProg s), busy; simpl; try (rewrite app_nil_r; reflexivity).
    unfold do_send; simpl; destruct (0 <? List.length p)%nat; simpl;
      [reflexivity|rewrite app_nil_r; reflexivity].
  - change (txInProg (set_cmdJson p s)) with (txInProg s).
    destruct (txInProg s), busy; simpl; try reflexivity.
    unfold do_send; simpl; destruct (0 <? List.length p)%nat; reflexivity.
Qed.

Definition is_tx (o : obs) : bool :=
  match o with TxData _ => true | _ => false end.

Lemma checkSchedules_no_tx s : filter is_tx (snd (checkSchedules s)) = [].
Proof.
  unfold checkSchedules; destruct (Bool.eqb _ _); [reflexivity|].
  destruct (scan _ _ _); reflexivity.
Qed.

Lemma checkSchedules_only_markers s :
  filter (fun o => negb (is_tx o)) (snd (checkSchedules s)) = snd (checkSchedules s).
Proof.
  unfold checkSchedules; destruct (Bool.eqb _ _); [reflexivity|].
  destruct (scan _ _ _); reflexivity.
Qed.

(** A tick hands LMIC at most one frame: the pending object with this
    tick's command fields, exactly when LMIC is idle ([OP_TXRXPEND] clear),
    no transmission is flagged and the object is non-empty; the object is
    then cleared, and otherwise it is kept for a later tick. *)
Theorem statusUpdate_transmission busy s :
  filter is_tx (snd (statusUpdate busy s))
  = (if negb busy && negb (txInProg s)
        && (0 <? List.length (apply_writes (cmdJson s) (cmd_writes s)))%nat
     then [TxData (apply_writes (cmdJson s) (cmd_writes s))] else [])
  /\ cmdJson (fst (statusUpdate busy s))
     = (if negb busy && negb (txInProg s)
           && (0 <? List.length (apply_writes (cmdJson s) (cmd_writes s)))%nat
        then [] else apply_writes (cmdJson s) (cmd_writes s)).
Proof.
  rewrite statusUpdate_eq; simpl; split; [|reflexivity].
  rewrite filter_app.
  replace (filter is_tx (if startUpComplete s then snd (checkSchedules s) else [])) with
    (@nil obs) by (destruct (startUpComplete s); [rewrite checkSchedules_no_tx|]; reflexivity).
  destruct (_ && _); reflexivity.
Qed.

(** A tick drives the outputs only after start-up: before it the outputs
    and markers are untouched; after it output 0 takes the schedule's
    value and the markers are those of [checkSchedules]. *)
Theorem statusUpdate_power busy s :
  powerState (fst (statusUpdate busy s))
  = (if startUpComplete s
     then (scan (rtc_epoch s) false (active s), snd (powerState s))
     else powerState s)
  /\ filter (fun o => negb (is_tx o)) (snd (statusUpdate busy s))
     = (if startUpComplete s then snd (checkSchedules s) else []).
Proof.
  rewrite statusUpdate_eq; simpl; split; [reflexivity|].
  rewrite filter_app.
  replace (filter (fun o => negb (is_tx o)) (if _ && _ then [TxData _] else [])) with
    (@nil obs) by (destruct (_ && _); reflexivity).
  rewrite app_nil_r; destruct (startUpComplete s); [apply checkSchedules_only_markers|reflexivity].
Qed.

(** The five-minute status frame reports [powerState] as it was before
    the same tick's schedule evaluation: a transition made by that tick
    appears only in the next report. *)
Theorem statusUpdate_status_reports_prior_state s :
  startUpComplete s = true -> getMinutes (rtc_epoch s) mod 5 = 0 -> txInProg s = false ->
  exists d,
    filter is_tx (snd (statusUpdate false s)) = [TxData d]
    /\ lookup "cmd" d = Some (VStr "status")
    /\ lookup "state" d = Some (VArr [VBool (fst (powerState s)); VBool (snd (powerState s))])
    /\ powerState (fst (statusUpdate false s))
       = (scan (rtc_epoch s) false (active s), snd (powerState s)).
Proof.
  intros Hs Hm Ht.
  destruct (proj1 (proj2 (statusUpdate_command_policy s)) Hs Hm) as [Hw Hcmd].
  assert (Hst : lookup "state" (apply_writes (cmdJson s) (cmd_writes s))
                = Some (VArr [VBool (fst (powerState s)); VBool (snd (powerState s))]))
    by (rewrite Hw; apply lookup_doc_set_same).
  assert (Hlen : (0 < List.length (apply_writes (cmdJson s) (cmd_writes s)))%nat).
  { destruct (apply_writes (cmdJson s) (cmd_writes s)); [discriminate Hst|simpl; lia]. }
  exists (apply_writes (cmdJson s) (cmd_writes s)).
  rewrite statusUpdate_eq, Hs, Ht; simpl.
  apply Nat.ltb_lt in Hlen; rewrite Hlen.
  rewrite filter_app, checkSchedules_no_tx; simpl.
  repeat split; assumption.
Qed.

Lemma statusUpdate_status_reports_prior_state_witness :
  (startUpComplete monday_engine = true
   /\ getMinutes (rtc_epoch monday_engine) mod 5 = 0
   /\ txInProg monday_engine = false)
  /\ exists d,
    filter is_tx (snd (statusUpdate false monday_engine)) = [TxData d]
    /\ lookup "cmd" d = Some (VStr "status")
    /\ lookup "state" d = Some (VArr [VBool (fst (powerState monday_engine));
                                       VBool (snd (powerState monday_engine))])
    /\ powerState (fst (statusUpdate false monday_engine))
       = (scan (rtc_epoch monday_engine) false (active monday_engine),
          snd (powerState monday_engine)).
Proof.
  split; [repeat split|].
  apply statusUpdate_status_reports_prior_state; reflexivity.
Defined.

(** *** Downlinks and the schedule table *)

Lemma nth_set_length {A} i (x : A) l l' :
  nth_set i x l = Some l' -> (i < List.length l)%nat /\ List.length l' = List.length l.
Proof.
  revert i l'; induction l as [|y r IH]; intros i l' H;
    [destruct i; simpl in H; discriminate|].
  destruct i as [|i]; simpl in H.
  - injection H as <-; simpl; lia.
  - destruct (nth_set i x r) as [r'|] eqn:E; simpl in H; [|discriminate].
    injection H as <-; destruct (IH _ _ E); simpl; lia.
Qed.

Lemma load_length dj sh sm i elems sched sched' :
  load dj sh sm i elems sched = Some sched' ->
  (List.length elems <= List.length sched - i)%nat
  /\ List.length sched' = List.length sched.
Proof.
  revert i sched; induction elems as [|e r IH]; intros i sched H; simpl in H.
  - injection H as <-; simpl; lia.
  - destruct (decode_entry dj sh sm e) as [x|]; [|discriminate].
    destruct (nth_set i x sched) as [sched1|] eqn:E; [|discriminate].
    destruct (nth_set_length _ _ _ _ E) as [Hi Hl].
    destruct (IH _ _ H) as [H1 H2]; simpl; lia.
Qed.

Lemma processDownlink_cases dm dj sh sm frame s s' o :
  processDownlink dm dj sh sm frame s = Some (s', o) ->
  (s' = s /\ o = [])
  \/ exists t elems sched,
       load dj sh sm 0 (firstn (Z.to_nat (u8 (Z.of_nat (List.length elems)))) elems)
         (powerSched s) = Some sched
       /\ checkSchedules
            (mkEngine t sched (u8 (Z.of_nat (List.length elems))) (powerState s) true
               (txInProg s) (timeSet s) (cmdJson s)) = (s', o).
Proof.
  intros H; unfold processDownlink in H.
  destruct (List.length frame =? 0)%nat; [left; injection H as <- <-; auto|].
  destruct (dm frame) as [err pj]; destruct err; try (left; injection H as <- <-; auto).
  destruct (equalsIgnoreCase _ _); [|left; injection H as <- <-; auto].
  destruct (load _ _ _ _ _ _) eqn:E; [|discriminate].
  right; injection H as H; eexists _, _, _; split; [exact E|exact H].
Qed.

(** The 25-slot table and a count that fits it. *)
Definition sched_table_ok (s : Engine) : Prop :=
  List.length (powerSched s) = 25%nat /\ 0 <= schedCount s <= 25.

Lemma processDownlink_table_ok dm dj sh sm frame s s' o :
  sched_table_ok s -> processDownlink dm dj sh sm frame s = Some (s', o) ->
  sched_table_ok s'.
Proof.
  intros [Hl Hc] H.
  destruct (processDownlink_cases _ _ _ _ _ _ _ _ H) as [[-> _]|(t & elems & sched & HL & HC)];
    [split; assumption|].
  apply (f_equal fst) in HC; rewrite checkSchedules_shape in HC; simpl in HC; subst s'.
  destruct (load_length _ _ _ _ _ _ _ HL) as [H1 H2].
  rewrite length_firstn in H1.
  unfold sched_table_ok; simpl; split; [congruence|].
  unfold u8 in *.
  pose proof (Z.mod_pos_bound (Z.of_nat (List.length elems)) 256 ltac:(lia)).
  pose proof (Z.mod_le (Z.of_nat (List.length elems)) 256 ltac:(lia) ltac:(lia)).
  lia.
Qed.

Lemma statusUpdate_frame busy s :
  powerSched (fst (statusUpdate busy s)) = powerSched s
  /\ schedCount (fst (statusUpdate busy s)) = schedCount s
  /\ timeSet (fst (statusUpdate busy s)) = timeSet s
  /\ snd (powerState (fst (statusUpdate busy s))) = snd (powerState s).
Proof.
  rewrite statusUpdate_eq; simpl.
  repeat split; destruct (startUpComplete s); reflexivity.
Qed.

Definition is_time_ref (ev : event) : bool :=
  match ev with EvNetworkTime (Some _) => true | _ => false end.

Lemma processDownlink_frame dm dj sh sm frame s s' o :
  processDownlink dm dj sh sm frame s = Some (s', o) ->
  timeSet s' = timeSet s /\ snd (powerState s') = snd (powerState s).
Proof.
  intros H.
  destruct (processDownlink_cases _ _ _ _ _ _ _ _ H) as [[-> _]|(t & elems & sched & _ & HC)];
    [split; reflexivity|].
  apply (f_equal fst) in HC; rewrite checkSchedules_shape in HC; simpl in HC; subst s'.
  split; reflexivity.
Qed.

Lemma step_frame dm dj sh sm ev s s' o :
  step dm dj sh sm ev s = Some (s', o) ->
  (sched_table_ok s -> sched_table_ok s')
  /\ timeSet s' = timeSet s || is_time_ref ev
  /\ snd (powerState s') = snd (powerState s).
Proof.
  intros H; destruct ev; simpl in H.
  - injection H as Hst.
    destruct (statusUpdate_frame busy s) as (H1 & H2 & H3 & H4).
    rewrite Hst in H1, H2, H3, H4; simpl in H1, H2, H3, H4.
    unfold sched_table_ok; rewrite H1, H2, H3, H4, orb_false_r; auto.
  - destruct (processDownlink_frame _ _ _ _ _ _ _ _ H) as [H1 H2].
    simpl in H1, H2; rewrite H1, H2, orb_false_r; split; [|auto].
    intros Hok; exact (processDownlink_table_ok _ _ _ _ _ (set_txInProg false s) _ _ Hok H).
  - destruct (processDownlink_frame _ _ _ _ _ _ _ _ H) as [H1 H2].
    rewrite H1, H2, orb_false_r; split; [|auto].
    intros Hok; exact (processDownlink_table_ok _ _ _ _ _ _ _ _ Hok H).
  - injection H as <- _; rewrite orb_false_r; auto.
  - injection H as <- _; destruct ref; simpl; [rewrite orb_true_r|rewrite orb_false_r]; auto.
  - injection H as <- _; rewrite orb_false_r; auto.
  - injection H as <- _; rewrite orb_false_r; auto.
Qed.

Lemma run_frame dm dj sh sm evs s :
  match run dm dj sh sm evs s with
  | Some (s', _) =>
      (sched_table_ok s -> sched_table_ok s')
      /\ timeSet s' = timeSet s || existsb is_time_ref evs
      /\ snd (powerState s') = snd (powerState s)
  | None => True
  end.
Proof.
  revert s; induction evs as [|ev evs IH]; intros s; simpl.
  - rewrite orb_false_r; auto.
  - destruct (step dm dj sh sm ev s) as [[s1 o1]|] eqn:E; [|exact I].
    specialize (IH s1).
    destruct (run dm dj sh sm evs s1) as [[s2 o2]|]; [|exact I].
    destruct (step_frame _ _ _ _ _ _ _ _ E) as (F1 & F2 & F3).
    destruct IH as (I1 & I2 & I3).
    rewrite I2, F2, orb_assoc, I3, F3; auto.
Qed.

(** From power-on, every defined run keeps the 25-slot table and a
    [schedCount] of at most 25, so [checkSchedules] only reads loaded
    slots: the entries it visits are exactly [schedCount] many. *)
Theorem run_from_power_on_table_ok dm dj sh sm evs t :
  match run dm dj sh sm evs (initial_engine t) with
  | Some (s', _) =>
      List.length (powerSched s') = 25%nat /\ 0 <= schedCount s' <= 25
      /\ List.length (active s') = Z.to_nat (schedCount s')
  | None => True
  end.
Proof.
  pose proof (run_frame dm dj sh sm evs (initial_engine t)) as H.
  destruct (run dm dj sh sm evs (initial_engine t)) as [[s' o]|]; [|exact I].
  destruct H as [H _].
  assert (Hok : sched_table_ok s') by (apply H; split; simpl; [reflexivity|lia]).
  destruct Hok as [Hl Hc]; split; [exact Hl|split; [exact Hc|]].
  unfold active; rewrite length_firstn, Hl; lia.
Qed.

(** Output 1 ([powerState[1]]) is never written: no run changes it. *)
Theorem run_keeps_output1 dm dj sh sm evs s :
  match run dm dj sh sm evs s with
  | Some (s', _) => snd (powerState s') = snd (powerState s)
  | None => True
  end.
Proof.
  pose proof (run_frame dm dj sh sm evs s) as H.
  destruct (run dm dj sh sm evs s) as [[s' o]|]; [apply H|exact I].
Qed.

(** [timeSet] is set by a network time reference and never cleared: after
    a run it is set exactly when it was before or the run delivered a
    successful time reference. *)
Theorem run_timeSet dm dj sh sm evs s :
  match run dm dj sh sm evs s with
  | Some (s', _) => timeSet s' = timeSet s || existsb is_time_ref evs
  | None => True
  end.
Proof.
  pose proof (run_frame dm dj sh sm evs s) as H.
  destruct (run dm dj sh sm evs s) as [[s' o]|]; [apply H|exact I].
Qed.

(** A downlink leaves the engine as it is and emits nothing when the frame
    is empty, when MessagePack decoding reports an error, or when "cmd" is
    not "init" in any letter case. *)
Theorem processDownlink_ignored dm dj sh sm frame s :
  (List.length frame = 0%nat
   \/ fst (dm frame) <> DeOk
   \/ equalsIgnoreCase (list_ascii_of_string (as_String (obj_get (snd (dm frame)) "cmd")))
        (list_ascii_of_string "init") = false) ->
  processDownlink dm dj sh sm frame s = Some (s, []).
Proof.
  intros H; unfold processDownlink.
  destruct (List.length frame =? 0)%nat eqn:E; [reflexivity|].
  apply Nat.eqb_neq in E.
  destruct (dm frame) as [err pj]; cbn [fst snd] in H.
  destruct H as [H|[H|H]]; [contradiction|destruct err; [contradiction|reflexivity..]|].
  destruct err; try reflexivity.
  cbv beta iota zeta; rewrite H; reflexivity.
Qed.

Lemma processDownlink_ignored_witness :
  (List.length frame1 = 0%nat
   \/ fst (msgpack_yields (VObj [("cmd"%string, VStr "status")]) frame1) <> DeOk
   \/ equalsIgnoreCase
        (list_ascii_of_string
           (as_String (obj_get (snd (msgpack_yields (VObj [("cmd"%string, VStr "status")]) frame1)) "cmd")))
        (list_ascii_of_string "init") = false)
  /\ processDownlink (msgpack_yields (VObj [("cmd"%string, VStr "status")])) elem_is_doc [] []
       frame1 monday_engine = Some (monday_engine, []).
Proof.
  split; [right; right; vm_compute; reflexivity|].
  apply processDownlink_ignored; right; right; vm_compute; reflexivity.
Defined.

(** An "init" downlink whose elements are all well formed ("st", "dow"
    0-6, "tm" = "HHMM") and at most 25, received while the bytes after the
    two characters [strncpy] copies into [hour] and [min] are not digits,
    loads exactly those entries as the active table, sets the clock to
    "cur-time", completes start-up and re-evaluates output 0 at the new
    time; the table keeps 25 slots. *)
Theorem processDownlink_init_wellformed dm dj sh sm frame s payload c t elems xs :
  (List.length frame <> 0)%nat ->
  dm frame = (DeOk, payload) ->
  obj_get payload "cmd" = Some (VStr c) ->
  equalsIgnoreCase (list_ascii_of_string c) (list_ascii_of_string "init") = true ->
  obj_get payload "cur-time" = Some (VInt t) -> 0 <= t < 4294967296 ->
  as_array (obj_get payload "cmd-data") = elems ->
  Forall2 (encodes dj) elems xs ->
  lead_non_digit sh -> lead_non_digit sm ->
  (List.length elems <= 25)%nat -> List.length (powerSched s) = 25%nat ->
  match processDownlink dm dj sh sm frame s with
  | Some (s', _) =>
      active s' = xs /\ rtc_epoch s' = t /\ startUpComplete s' = true
      /\ powerState s' = (scan t false xs, snd (powerState s))
      /\ List.length (powerSched s') = 25%nat
  | None => False
  end.
Proof.
  intros Hf Hdm Hcmd Hinit Hcur Ht Hcd HF Hsh Hsm Hn Hs.
  assert (HD : Forall2 (fun e x => decode_entry dj sh sm e = Some x) elems xs)
    by (eapply Forall2_impl; [|exact HF]; intros e x He;
        exact (decode_entry_wellformed dj sh sm e x He Hsh Hsm)).
  pose proof (Forall2_length HF) as Hlen.
  rewrite (processDownlink_init dm dj sh sm frame s payload c t elems xs
             Hf Hdm Hcmd Hinit Hcur Ht Hcd HD Hn Hs).
  pose proof (checkSchedules_shape
                (mkEngine t (xs ++ skipn (List.length xs) (powerSched s))
                   (Z.of_nat (List.length xs)) (powerState s) true
                   (txInProg s) (timeSet s) (cmdJson s))) as Hsh'.
  destruct (checkSchedules _) as [s' o]; simpl in Hsh'; subst s'.
  assert (Ha : active (mkEngine t (xs ++ skipn (List.length xs) (powerSched s))
                         (Z.of_nat (List.length xs)) (powerState s) true
                         (txInProg s) (timeSet s) (cmdJson s)) = xs).
  { unfold active; simpl; rewrite Nat2Z.id, firstn_app, Nat.sub_diag, firstn_O,
      app_nil_r, firstn_all; reflexivity. }
  unfold set_powerState; simpl; rewrite Ha.
  repeat split; [exact Ha|].
  rewrite length_app, length_skipn; lia.
Qed.

Lemma processDownlink_init_wellformed_witness :
  ((List.length frame1 <> 0)%nat
   /\ msgpack_yields (init_doc 1600000000 [entry_doc true 1 "0800"; entry_doc false 1 "0830"]) frame1
      = (DeOk, init_doc 1600000000 [entry_doc true 1 "0800"; entry_doc false 1 "0830"])
   /\ lead_non_digit [Ascii.zero]
   /\ Forall2 (encodes elem_is_doc) [entry_doc true 1 "0800"; entry_doc false 1 "0830"]
        [on_0800; off_0830])
  /\ match processDownlink
             (msgpack_yields (init_doc 1600000000 [entry_doc true 1 "0800"; entry_doc false 1 "0830"]))
             elem_is_doc [Ascii.zero] [Ascii.zero] frame1
             (initial_engine 0) with
     | Some (s', _) =>
         active s' = [on_0800; off_0830] /\ rtc_epoch s' = 1600000000
         /\ startUpComplete s' = true
         /\ powerState s' = (scan 1600000000 false [on_0800; off_0830], snd (powerState (initial_engine 0)))
         /\ List.length (powerSched s') = 25%nat
     | None => False
     end.
Proof.
  assert (HF : Forall2 (encodes elem_is_doc) [entry_doc true 1 "0800"; entry_doc false 1 "0830"]
                 [on_0800; off_0830]).
  { apply Forall2_cons; [|apply Forall2_cons; [|apply Forall2_nil]].
    all: eexists; split; [reflexivity|].
    all: repeat split; first [reflexivity|unfold on_0800, off_0830; simpl; lia]. }
  split; [split; [discriminate|split; [reflexivity|split; [reflexivity|exact HF]]]|].
  apply (processDownlink_init_wellformed _ _ [Ascii.zero] [Ascii.zero] frame1 (initial_engine 0)
           (init_doc 1600000000 [entry_doc true 1 "0800"; entry_doc false 1 "0830"]) "init"
           1600000000 [entry_doc true 1 "0800"; entry_doc false 1 "0830"]);
    [discriminate|reflexivity|reflexivity|vm_compute; reflexivity|reflexivity|lia
    |reflexivity|exact HF|reflexivity|reflexivity|simpl; lia|reflexivity].
Defined.
